(** * seqan3::qualified: a nucleotide letter paired with a quality letter

    Shallow embedding of [include/seqan3/alphabet/quality/qualified.hpp].

    The struct [qualified<sequence_alphabet_t, quality_alphabet_t>] is a pair
    of one sequence letter (slot 0) and one quality letter (slot 1).  Its
    template parameters are constrained by the concepts [nucleotide_concept]
    and [quality_concept]; they become type classes here, and every member
    function of the struct is a definition over an arbitrary pair of
    instances.  Ranks are unsigned integers, modelled in [N]. *)

From Stdlib Require Import NArith List Bool Ascii Eqdep_dec Lia.
Import ListNotations.

Local Open Scope N_scope.

(* ================================================================== *)
(** * The component interfaces consumed by [qualified] *)
(* ================================================================== *)

Module seqan3.

(** What every component alphabet offers: a rank domain, a character
    conversion and its own six relational operators.  The free functions
    [seqan3::assign_rank], [seqan3::assign_char] take the letter by reference
    and overwrite it; here they take the old letter and return the new one. *)
Class alphabet_concept (alphabet_t : Type) : Type := {
  underlying_char_t : Type;
  alphabet_size : N;
  to_rank : alphabet_t -> N;
  assign_rank : alphabet_t -> N -> alphabet_t;
  to_char : alphabet_t -> underlying_char_t;
  assign_char : alphabet_t -> underlying_char_t -> alphabet_t;
  op_eq : alphabet_t -> alphabet_t -> bool;
  op_ne : alphabet_t -> alphabet_t -> bool;
  op_lt : alphabet_t -> alphabet_t -> bool;
  op_gt : alphabet_t -> alphabet_t -> bool;
  op_le : alphabet_t -> alphabet_t -> bool;
  op_ge : alphabet_t -> alphabet_t -> bool
}.

Arguments underlying_char_t alphabet_t {_}.
Arguments alphabet_size alphabet_t {_}.

(** [nucleotide_concept]: an alphabet with a [complement]. *)
Class nucleotide_concept (alphabet_t : Type) : Type := {
  nucleotide_alphabet :: alphabet_concept alphabet_t;
  complement : alphabet_t -> alphabet_t
}.

(** [quality_concept]: an alphabet with a phred conversion. *)
Class quality_concept (alphabet_t : Type) : Type := {
  quality_alphabet :: alphabet_concept alphabet_t;
  underlying_phred_t : Type;
  to_phred : alphabet_t -> underlying_phred_t;
  assign_phred : alphabet_t -> underlying_phred_t -> alphabet_t
}.

Arguments underlying_phred_t alphabet_t {_}.

(** The rank/value mapping of a component is total and invertible, whatever
    letter the assignment overwrites. *)
Class alphabet_laws (alphabet_t : Type) `{alphabet_concept alphabet_t} : Prop := {
  to_rank_bound : forall x : alphabet_t, to_rank x < alphabet_size alphabet_t;
  assign_to_rank : forall x y : alphabet_t, assign_rank y (to_rank x) = x;
  to_rank_assign : forall (y : alphabet_t) (r : N),
      r < alphabet_size alphabet_t -> to_rank (assign_rank y r) = r
}.

End seqan3.

#[global] Existing Instance seqan3.nucleotide_alphabet.
#[global] Existing Instance seqan3.quality_alphabet.

(* ================================================================== *)
(** * The mixed-radix rank of a composition *)
(* ================================================================== *)

Module cartesian_composition.

(** Modelled from the spec: [cartesian_composition.hpp], the base class of
    [qualified], is not part of the sources at hand.  Its size is the product
    of the component sizes. *)
Fixpoint value_size (sizes : list N) : N :=
  match sizes with
  | [] => 1
  | s :: rest => s * value_size rest
  end.

(** Modelled from the spec: the rank of a composition, missing with
    [cartesian_composition.hpp], is
    [sum_i rank_i * prod_{j>i} size_j]; position 0 is the most significant
    digit. *)
Fixpoint encode (sizes ranks : list N) : N :=
  match sizes, ranks with
  | _ :: rest, r :: rs => r * value_size rest + encode rest rs
  | _, _ => 0
  end.

(** Modelled from the spec: the decoding half of the mixed-radix pair of the
    missing [cartesian_composition.hpp]; digit [i] of [r] is
    [(r / prod_{j>i} size_j) mod size_i]. *)
Fixpoint decode (sizes : list N) (r : N) : list N :=
  match sizes with
  | [] => []
  | s :: rest =>
      ((r / value_size rest) mod s) :: decode rest (r mod value_size rest)
  end.

(** A tuple of component ranks is well formed when every digit is below the
    size of its component. *)
Definition digits_ok (sizes ranks : list N) : Prop :=
  Forall2 (fun r s => r < s) ranks sizes.

End cartesian_composition.

(* ================================================================== *)
(** * [struct qualified] *)
(* ================================================================== *)

Module qualified.

Section members.

Context {sequence_alphabet_t quality_alphabet_t : Type}.
Context `{seq_concept : seqan3.nucleotide_concept sequence_alphabet_t}.
Context `{qual_concept : seqan3.quality_concept quality_alphabet_t}.

(** The storage inherited from the tuple base: [get<0>] and [get<1>].
    [Build_qualified s p] is the brace initialisation [qualified{s, p}]. *)
Record qualified : Type := Build_qualified {
  get0 : sequence_alphabet_t;
  get1 : quality_alphabet_t
}.

Definition char_type : Type := seqan3.underlying_char_t sequence_alphabet_t.
Definition phred_type : Type := seqan3.underlying_phred_t quality_alphabet_t.

(** A member call runs on the object [*this]; it yields its result and the
    object as the call leaves it.  A [const] member hands [*this] back
    untouched. *)
Definition member_call (R : Type) : Type := qualified -> R * qualified.

Definition const_member {R : Type} (f : qualified -> R) : member_call R :=
  fun this => (f this, this).

(** ** Write functions

    Each write function updates [*this] in place and returns a reference to
    it; the definition gives the object after the call. *)

(** [operator=(sequence_alphabet_type const l)]: [get<0>( *this) = l]. *)
Definition operator_assign_sequence (this : qualified) (l : sequence_alphabet_t)
  : qualified :=
  {| get0 := l; get1 := get1 this |}.

(** [operator=(quality_alphabet_type const l)]: [get<1>( *this) = l]. *)
Definition operator_assign_quality (this : qualified) (l : quality_alphabet_t)
  : qualified :=
  {| get0 := get0 this; get1 := l |}.

(** [assign_char(c)]: [seqan3::assign_char(get<0>( *this), c)]. *)
Definition assign_char (this : qualified) (c : char_type) : qualified :=
  {| get0 := seqan3.assign_char (get0 this) c; get1 := get1 this |}.

(** [assign_phred(c)]: [seqan3::assign_phred(get<1>( *this), c)]. *)
Definition assign_phred (this : qualified) (c : phred_type) : qualified :=
  {| get0 := get0 this; get1 := seqan3.assign_phred (get1 this) c |}.

(** ** Read functions *)

Definition to_phred (this : qualified) : phred_type :=
  seqan3.to_phred (get1 this).

Definition to_char (this : qualified) : char_type :=
  seqan3.to_char (get0 this).

(** [complement()]: [qualified{complement(get<0>( *this)), get<1>( *this)}]. *)
Definition complement (this : qualified) : qualified :=
  Build_qualified (seqan3.complement (get0 this)) (get1 this).

(** The three read functions are declared [const]. *)
Definition to_phred_call : member_call phred_type := const_member to_phred.
Definition to_char_call : member_call char_type := const_member to_char.
Definition complement_call : member_call qualified := const_member complement.

(** ** Comparison with the sequence letter, composition on the left *)

Definition operator_eq_sequence (this : qualified) (rhs : sequence_alphabet_t) : bool :=
  seqan3.op_eq (get0 this) rhs.
Definition operator_ne_sequence (this : qualified) (rhs : sequence_alphabet_t) : bool :=
  seqan3.op_ne (get0 this) rhs.
Definition operator_lt_sequence (this : qualified) (rhs : sequence_alphabet_t) : bool :=
  seqan3.op_lt (get0 this) rhs.
Definition operator_gt_sequence (this : qualified) (rhs : sequence_alphabet_t) : bool :=
  seqan3.op_gt (get0 this) rhs.
Definition operator_le_sequence (this : qualified) (rhs : sequence_alphabet_t) : bool :=
  seqan3.op_le (get0 this) rhs.
Definition operator_ge_sequence (this : qualified) (rhs : sequence_alphabet_t) : bool :=
  seqan3.op_ge (get0 this) rhs.

(** ** Comparison with the sequence letter, letter on the left (friends) *)

Definition friend_eq_sequence (lhs : sequence_alphabet_t) (rhs : qualified) : bool :=
  operator_eq_sequence rhs lhs.
Definition friend_ne_sequence (lhs : sequence_alphabet_t) (rhs : qualified) : bool :=
  operator_ne_sequence rhs lhs.
Definition friend_lt_sequence (lhs : sequence_alphabet_t) (rhs : qualified) : bool :=
  operator_gt_sequence rhs lhs.
Definition friend_gt_sequence (lhs : sequence_alphabet_t) (rhs : qualified) : bool :=
  operator_lt_sequence rhs lhs.
Definition friend_le_sequence (lhs : sequence_alphabet_t) (rhs : qualified) : bool :=
  operator_ge_sequence rhs lhs.
Definition friend_ge_sequence (lhs : sequence_alphabet_t) (rhs : qualified) : bool :=
  operator_le_sequence rhs lhs.

(** ** Comparison with the quality letter, composition on the left *)

Definition operator_eq_quality (this : qualified) (rhs : quality_alphabet_t) : bool :=
  seqan3.op_eq (get1 this) rhs.
Definition operator_ne_quality (this : qualified) (rhs : quality_alphabet_t) : bool :=
  seqan3.op_ne (get1 this) rhs.
Definition operator_lt_quality (this : qualified) (rhs : quality_alphabet_t) : bool :=
  seqan3.op_lt (get1 this) rhs.
Definition operator_gt_quality (this : qualified) (rhs : quality_alphabet_t) : bool :=
  seqan3.op_gt (get1 this) rhs.
Definition operator_le_quality (this : qualified) (rhs : quality_alphabet_t) : bool :=
  seqan3.op_le (get1 this) rhs.
Definition operator_ge_quality (this : qualified) (rhs : quality_alphabet_t) : bool :=
  seqan3.op_ge (get1 this) rhs.

(** ** Comparison with the quality letter, letter on the left (friends) *)

Definition friend_eq_quality (lhs : quality_alphabet_t) (rhs : qualified) : bool :=
  operator_eq_quality rhs lhs.
Definition friend_ne_quality (lhs : quality_alphabet_t) (rhs : qualified) : bool :=
  operator_ne_quality rhs lhs.
Definition friend_lt_quality (lhs : quality_alphabet_t) (rhs : qualified) : bool :=
  operator_gt_quality rhs lhs.
Definition friend_gt_quality (lhs : quality_alphabet_t) (rhs : qualified) : bool :=
  operator_lt_quality rhs lhs.
Definition friend_le_quality (lhs : quality_alphabet_t) (rhs : qualified) : bool :=
  operator_ge_quality rhs lhs.
Definition friend_ge_quality (lhs : quality_alphabet_t) (rhs : qualified) : bool :=
  operator_le_quality rhs lhs.

(** ** Members inherited from the composition base *)

(** The component sizes and the component ranks of a value, slot 0 first. *)
Definition component_sizes : list N :=
  [seqan3.alphabet_size sequence_alphabet_t;
   seqan3.alphabet_size quality_alphabet_t].

Definition component_ranks (this : qualified) : list N :=
  [seqan3.to_rank (get0 this); seqan3.to_rank (get1 this)].

(** Modelled from the spec: [value_size] of the base class
    [cartesian_composition], which is not part of the sources at hand. *)
Definition value_size : N :=
  cartesian_composition.value_size component_sizes.

(** Modelled from the spec: [to_rank()] of the missing base class, the
    mixed-radix rank of the two slots. *)
Definition to_rank (this : qualified) : N :=
  cartesian_composition.encode component_sizes (component_ranks this).

(** Modelled from the spec: [assign_rank(r)] of the missing base class;
    every slot is overwritten with the letter of its digit of [r]. *)
Definition assign_rank (this : qualified) (r : N) : qualified :=
  match cartesian_composition.decode component_sizes r with
  | [r0; r1] =>
      {| get0 := seqan3.assign_rank (get0 this) r0;
         get1 := seqan3.assign_rank (get1 this) r1 |}
  | _ => this
  end.

(** Modelled from the spec: the inherited [operator==] and [operator!=] of
    the missing base class compare two compositions by rank. *)
Definition operator_eq (this rhs : qualified) : bool :=
  to_rank this =? to_rank rhs.

Definition operator_ne (this rhs : qualified) : bool :=
  negb (to_rank this =? to_rank rhs).

End members.

Arguments qualified sequence_alphabet_t quality_alphabet_t : clear implicits.
Arguments component_sizes sequence_alphabet_t quality_alphabet_t {_ _}.
Arguments value_size sequence_alphabet_t quality_alphabet_t {_ _}.

End qualified.

(* ================================================================== *)
(** * The two alphabets of the running example *)
(* ================================================================== *)

Module dna4.

(** Modelled from the spec: the four-letter sequence alphabet of the example
    scenario ([dna4.hpp] is not part of the sources at hand), with ranks
    A=0, C=1, G=2, T=3 and the complement A<->T, C<->G. *)
Inductive dna4 : Type := A | C | G | T.

Definition to_rank (l : dna4) : N :=
  match l with A => 0 | C => 1 | G => 2 | T => 3 end.

Definition assign_rank (_ : dna4) (r : N) : dna4 :=
  match r with 0 => A | 1 => C | 2 => G | _ => T end.

Definition to_char (l : dna4) : ascii :=
  match l with A => "A" | C => "C" | G => "G" | T => "T" end%char.

(** A character that names no letter falls back to the default letter. *)
Definition assign_char (_ : dna4) (c : ascii) : dna4 :=
  if Ascii.eqb c "C" then C
  else if Ascii.eqb c "G" then G
  else if Ascii.eqb c "T" then T
  else A.

Definition complement (l : dna4) : dna4 :=
  match l with A => T | C => G | G => C | T => A end.

#[global] Instance alphabet : seqan3.alphabet_concept dna4 := {|
  seqan3.underlying_char_t := ascii;
  seqan3.alphabet_size := 4;
  seqan3.to_rank := to_rank;
  seqan3.assign_rank := assign_rank;
  seqan3.to_char := to_char;
  seqan3.assign_char := assign_char;
  seqan3.op_eq := fun x y => to_rank x =? to_rank y;
  seqan3.op_ne := fun x y => negb (to_rank x =? to_rank y);
  seqan3.op_lt := fun x y => to_rank x <? to_rank y;
  seqan3.op_gt := fun x y => to_rank y <? to_rank x;
  seqan3.op_le := fun x y => to_rank x <=? to_rank y;
  seqan3.op_ge := fun x y => to_rank y <=? to_rank x
|}.

#[global] Instance nucleotide : seqan3.nucleotide_concept dna4 := {|
  seqan3.nucleotide_alphabet := alphabet;
  seqan3.complement := complement
|}.

End dna4.

Module phred42.

(** Modelled from the spec: the quality alphabet of the example scenario
    ([phred42.hpp] is not part of the sources at hand), 42 phred levels
    0..41, the rank of a letter being its phred score. *)
Record phred42 : Type := Build_phred42 {
  rank : N;
  rank_in_range : (rank <? 42) = true
}.

Definition clamp_in_range (p : N) : (N.min p 41 <? 42) = true :=
  proj2 (N.ltb_lt (N.min p 41) 42)
        (N.le_lt_trans _ _ _ (N.le_min_r p 41) (proj1 (N.ltb_lt 41 42) eq_refl)).

(** A score above the top level is mapped to the top level. *)
Definition of_phred (p : N) : phred42 :=
  {| rank := N.min p 41; rank_in_range := clamp_in_range p |}.

Definition to_phred (l : phred42) : N := rank l.

Definition assign_phred (_ : phred42) (p : N) : phred42 := of_phred p.

Definition to_rank (l : phred42) : N := rank l.

Definition assign_rank (_ : phred42) (r : N) : phred42 := of_phred r.

(** The printable character of a score is the score shifted by 33. *)
Definition to_char (l : phred42) : ascii := ascii_of_N (rank l + 33).

Definition assign_char (_ : phred42) (c : ascii) : phred42 :=
  of_phred (N_of_ascii c - 33).

#[global] Instance alphabet : seqan3.alphabet_concept phred42 := {|
  seqan3.underlying_char_t := ascii;
  seqan3.alphabet_size := 42;
  seqan3.to_rank := to_rank;
  seqan3.assign_rank := assign_rank;
  seqan3.to_char := to_char;
  seqan3.assign_char := assign_char;
  seqan3.op_eq := fun x y => to_rank x =? to_rank y;
  seqan3.op_ne := fun x y => negb (to_rank x =? to_rank y);
  seqan3.op_lt := fun x y => to_rank x <? to_rank y;
  seqan3.op_gt := fun x y => to_rank y <? to_rank x;
  seqan3.op_le := fun x y => to_rank x <=? to_rank y;
  seqan3.op_ge := fun x y => to_rank y <=? to_rank x
|}.

#[global] Instance quality : seqan3.quality_concept phred42 := {|
  seqan3.quality_alphabet := alphabet;
  seqan3.underlying_phred_t := N;
  seqan3.to_phred := to_phred;
  seqan3.assign_phred := assign_phred
|}.

End phred42.

(** [qualified<dna4, phred42>] and its brace initialisation from a sequence
    letter and a phred score. *)
Definition dna4q : Type := qualified.qualified dna4.dna4 phred42.phred42.

Definition dna4q_init (l : dna4.dna4) (p : N) : dna4q :=
  qualified.Build_qualified l (phred42.of_phred p).

(* ================================================================== *)
(** * The mixed-radix pair is a bijection *)
(* ================================================================== *)

Module cartesian_facts.
Import cartesian_composition.

Lemma value_size_product (sizes : list N) :
  value_size sizes = fold_right N.mul 1 sizes.
Proof. induction sizes as [|s rest IH]; simpl; congruence. Qed.

Lemma encode_bound (sizes ranks : list N) :
  digits_ok sizes ranks -> encode sizes ranks < value_size sizes.
Proof.
  unfold digits_ok. intros ok.
  induction ok as [|r s rs rest Hr _ IH]; simpl.
  - lia.
  - nia.
Qed.

Lemma decode_encode (sizes ranks : list N) :
  digits_ok sizes ranks -> decode sizes (encode sizes ranks) = ranks.
Proof.
  unfold digits_ok. intros ok.
  induction ok as [|r s rs rest Hr ok IH]; simpl; [reflexivity|].
  pose proof (encode_bound rest rs ok) as Hlow.
  assert (Hpos : value_size rest <> 0) by lia.
  f_equal.
  - rewrite N.div_add_l by exact Hpos.
    rewrite (N.div_small _ _ Hlow), N.add_0_r.
    now apply N.mod_small.
  - rewrite N.add_comm, N.Div0.mod_add.
    rewrite (N.mod_small _ _ Hlow). exact IH.
Qed.

Lemma encode_decode (sizes : list N) :
  forall r, r < value_size sizes -> encode sizes (decode sizes r) = r.
Proof.
  induction sizes as [|s rest IH]; simpl; intros r Hr.
  - lia.
  - assert (Hpos : value_size rest <> 0) by nia.
    rewrite IH by (apply N.mod_lt; exact Hpos).
    rewrite N.mod_small.
    + rewrite N.mul_comm. symmetry. apply N.div_mod'.
    + apply N.Div0.div_lt_upper_bound. now rewrite N.mul_comm.
Qed.

Lemma decode_digits_ok (sizes : list N) :
  forall r, r < value_size sizes -> digits_ok sizes (decode sizes r).
Proof.
  unfold digits_ok.
  induction sizes as [|s rest IH]; simpl; intros r Hr; constructor.
  - apply N.mod_lt. nia.
  - apply IH. apply N.mod_lt. nia.
Qed.

(** No two well-formed digit tuples share a rank. *)
Lemma encode_injective (sizes ranks ranks' : list N) :
  digits_ok sizes ranks -> digits_ok sizes ranks' ->
  encode sizes ranks = encode sizes ranks' -> ranks = ranks'.
Proof.
  intros ok ok' Heq.
  rewrite <- (decode_encode sizes ranks ok), <- (decode_encode sizes ranks' ok').
  now rewrite Heq.
Qed.

End cartesian_facts.

(* ================================================================== *)
(** * The example alphabets meet the component contract *)
(* ================================================================== *)

Lemma dna4_laws : seqan3.alphabet_laws dna4.dna4.
Proof.
  split.
  - intros []; reflexivity.
  - intros [] y; reflexivity.
  - intros y r Hr. cbn in Hr.
    assert (Hcases : r = 0 \/ r = 1 \/ r = 2 \/ r = 3) by lia.
    destruct Hcases as [-> | [-> | [-> | ->]]]; reflexivity.
Qed.

Lemma phred42_ext (x y : phred42.phred42) :
  phred42.rank x = phred42.rank y -> x = y.
Proof.
  destruct x as [rx okx], y as [ry oky]; simpl; intros <-.
  f_equal. apply UIP_dec, bool_dec.
Qed.

Lemma phred42_laws : seqan3.alphabet_laws phred42.phred42.
Proof.
  split.
  - intros [r ok]. cbn. now apply N.ltb_lt.
  - intros [r ok] y. apply phred42_ext. cbn.
    apply N.ltb_lt in ok. lia.
  - intros y r Hr. cbn in *. lia.
Qed.

Lemma dna4_complement_involutive (x : dna4.dna4) :
  seqan3.complement (seqan3.complement x) = x.
Proof. destruct x; reflexivity. Qed.

(* ================================================================== *)
(** * Rank of a qualified letter *)
(* ================================================================== *)

Section rank_facts.

Context {sequence_alphabet_t quality_alphabet_t : Type}.
Context `{seq_concept : seqan3.nucleotide_concept sequence_alphabet_t}.
Context `{qual_concept : seqan3.quality_concept quality_alphabet_t}.

Abbreviation qualified := (qualified.qualified sequence_alphabet_t quality_alphabet_t).
Abbreviation size0 := (seqan3.alphabet_size sequence_alphabet_t).
Abbreviation size1 := (seqan3.alphabet_size quality_alphabet_t).

Lemma to_rank_unfold (q : qualified) :
  qualified.to_rank q
  = seqan3.to_rank (qualified.get0 q) * size1 + seqan3.to_rank (qualified.get1 q).
Proof.
  unfold qualified.to_rank, qualified.component_sizes, qualified.component_ranks.
  simpl. lia.
Qed.

Lemma value_size_unfold :
  qualified.value_size sequence_alphabet_t quality_alphabet_t = size0 * size1.
Proof.
  unfold qualified.value_size, qualified.component_sizes. simpl. lia.
Qed.

Lemma decode_two (r : N) :
  exists r0 r1,
    cartesian_composition.decode
      (qualified.component_sizes sequence_alphabet_t quality_alphabet_t) r
    = [r0; r1].
Proof. unfold qualified.component_sizes. simpl. eauto. Qed.

Context {seq_laws : seqan3.alphabet_laws sequence_alphabet_t}.
Context {qual_laws : seqan3.alphabet_laws quality_alphabet_t}.

Lemma component_ranks_ok (q : qualified) :
  cartesian_composition.digits_ok
    (qualified.component_sizes sequence_alphabet_t quality_alphabet_t)
    (qualified.component_ranks q).
Proof.
  unfold cartesian_composition.digits_ok.
  repeat constructor; apply seqan3.to_rank_bound.
Qed.

Lemma assign_rank_to_rank (c d : qualified) :
  qualified.assign_rank d (qualified.to_rank c) = c.
Proof.
  unfold qualified.assign_rank, qualified.to_rank.
  rewrite cartesian_facts.decode_encode by apply component_ranks_ok.
  unfold qualified.component_ranks.
  rewrite !seqan3.assign_to_rank. now destruct c.
Qed.

Lemma to_rank_assign_rank (d : qualified) (r : N) :
  r < qualified.value_size sequence_alphabet_t quality_alphabet_t ->
  qualified.to_rank (qualified.assign_rank d r) = r.
Proof.
  intros Hr. unfold qualified.value_size in Hr.
  pose proof (cartesian_facts.decode_digits_ok _ _ Hr) as ok.
  pose proof (cartesian_facts.encode_decode _ _ Hr) as Hback.
  unfold qualified.assign_rank, qualified.to_rank.
  destruct (decode_two r) as (r0 & r1 & Hdec).
  rewrite Hdec in *.
  apply Forall2_cons_iff in ok. destruct ok as [H0 ok].
  apply Forall2_cons_iff in ok. destruct ok as [H1 _].
  unfold qualified.component_ranks; cbn [qualified.get0 qualified.get1].
  rewrite !seqan3.to_rank_assign by assumption.
  exact Hback.
Qed.

Lemma to_rank_lt_value_size (c : qualified) :
  qualified.to_rank c < qualified.value_size sequence_alphabet_t quality_alphabet_t.
Proof. apply cartesian_facts.encode_bound, component_ranks_ok. Qed.

End rank_facts.

(** The usage example in the header of [qualified.hpp] prints 148 as the
    rank of [{dna4::A, 7}].  Over component sizes 4 and 42 neither digit
    order of the ranks 0 and 7 produces that number. *)
Remark header_example_rank_is_no_digit_order :
  cartesian_composition.encode [4; 42] [0; 7] <> 148 /\
  cartesian_composition.encode [42; 4] [7; 0] <> 148.
Proof. split; discriminate. Qed.

(* ================================================================== *)
(** * Properties of [qualified<dna4, phred42>] and of every instantiation *)
(* ================================================================== *)

(** C1.  Over the four-letter alphabet with ranks A=0, C=1, G=2, T=3 and the
    quality alphabet of 42 levels, the rank of a qualified letter is the
    rank of its sequence letter times 42 plus the rank of its quality letter
    (slot 0 is the most significant digit).  The letter built from (A, 7)
    has rank 0*42 + 7 = 7; its complement is the letter (T, 7), of rank
    3*42 + 7 = 133. *)
Theorem dna4q_rank_is_mixed_radix :
  map seqan3.to_rank [dna4.A; dna4.C; dna4.G; dna4.T] = [0; 1; 2; 3] /\
  seqan3.alphabet_size dna4.dna4 = 4 /\
  seqan3.alphabet_size phred42.phred42 = 42 /\
  (forall q : dna4q,
      qualified.to_rank q
      = seqan3.to_rank (qualified.get0 q) * 42
        + seqan3.to_rank (qualified.get1 q)) /\
  qualified.to_rank (dna4q_init dna4.A 7) = 0 * 42 + 7 /\
  qualified.to_rank (dna4q_init dna4.A 7) = 7 /\
  qualified.complement (dna4q_init dna4.A 7) = dna4q_init dna4.T 7 /\
  qualified.to_rank (qualified.complement (dna4q_init dna4.A 7)) = 3 * 42 + 7 /\
  qualified.to_rank (qualified.complement (dna4q_init dna4.A 7)) = 133.
Proof.
  repeat split; try reflexivity.
  intros q. exact (to_rank_unfold q).
Qed.

(** C2.  When both component alphabets have an invertible rank mapping,
    decoding the rank of a qualified letter gives the letter back, encoding
    the decoding of a rank below the size gives the rank back, the size is
    the product of the two component sizes, every rank is below the size,
    and two letters of equal rank are equal: the mapping between letters and
    ranks in [0, size) is a bijection. *)
Theorem qualified_rank_bijection
    (sequence_alphabet_t quality_alphabet_t : Type)
    `{seq_concept : seqan3.nucleotide_concept sequence_alphabet_t}
    `{qual_concept : seqan3.quality_concept quality_alphabet_t}
    (seq_laws : seqan3.alphabet_laws sequence_alphabet_t)
    (qual_laws : seqan3.alphabet_laws quality_alphabet_t) :
  (forall c d : qualified.qualified sequence_alphabet_t quality_alphabet_t,
      qualified.assign_rank d (qualified.to_rank c) = c) /\
  (forall (d : qualified.qualified sequence_alphabet_t quality_alphabet_t) (r : N),
      r < qualified.value_size sequence_alphabet_t quality_alphabet_t ->
      qualified.to_rank (qualified.assign_rank d r) = r) /\
  qualified.value_size sequence_alphabet_t quality_alphabet_t
  = seqan3.alphabet_size sequence_alphabet_t
    * seqan3.alphabet_size quality_alphabet_t /\
  (forall c : qualified.qualified sequence_alphabet_t quality_alphabet_t,
      qualified.to_rank c
      < qualified.value_size sequence_alphabet_t quality_alphabet_t) /\
  (forall c c' : qualified.qualified sequence_alphabet_t quality_alphabet_t,
      qualified.to_rank c = qualified.to_rank c' -> c = c').
Proof.
  split; [exact assign_rank_to_rank|].
  split; [exact to_rank_assign_rank|].
  split; [exact value_size_unfold|].
  split; [exact to_rank_lt_value_size|].
  intros c c' Heq.
  rewrite <- (assign_rank_to_rank c c), <- (assign_rank_to_rank c' c).
  now rewrite Heq.
Qed.

Lemma qualified_rank_bijection_witness :
  seqan3.alphabet_laws dna4.dna4 /\
  seqan3.alphabet_laws phred42.phred42 /\
  qualified.assign_rank (dna4q_init dna4.A 0)
                        (qualified.to_rank (dna4q_init dna4.G 30))
  = dna4q_init dna4.G 30 /\
  qualified.to_rank (qualified.assign_rank (dna4q_init dna4.A 0) 133) = 133 /\
  qualified.value_size dna4.dna4 phred42.phred42 = 4 * 42.
Proof.
  split; [exact dna4_laws|]. split; [exact phred42_laws|].
  destruct (qualified_rank_bijection dna4.dna4 phred42.phred42
              (seq_concept := dna4.nucleotide) (qual_concept := phred42.quality)
              dna4_laws phred42_laws) as (Hdec & Henc & Hsize & _).
  split; [apply Hdec|]. split; [apply Henc; reflexivity|exact Hsize].
Defined.

(** C3.  [assign_char] replaces slot 0 by what the sequence alphabet's own
    [assign_char] makes of it and keeps slot 1; [assign_phred] replaces
    slot 1 by what the quality alphabet's own [assign_phred] makes of it and
    keeps slot 0. *)
Theorem assign_char_assign_phred_frame
    (sequence_alphabet_t quality_alphabet_t : Type)
    `{seq_concept : seqan3.nucleotide_concept sequence_alphabet_t}
    `{qual_concept : seqan3.quality_concept quality_alphabet_t}
    (q : qualified.qualified sequence_alphabet_t quality_alphabet_t)
    (c : qualified.char_type) (p : qualified.phred_type) :
  qualified.get0 (qualified.assign_char q c)
  = seqan3.assign_char (qualified.get0 q) c /\
  qualified.get1 (qualified.assign_char q c) = qualified.get1 q /\
  qualified.get1 (qualified.assign_phred q p)
  = seqan3.assign_phred (qualified.get1 q) p /\
  qualified.get0 (qualified.assign_phred q p) = qualified.get0 q.
Proof. repeat split. Qed.

(** C4.  Assigning a bare sequence letter sets slot 0 to it and keeps
    slot 1; assigning a bare quality letter sets slot 1 to it and keeps
    slot 0.  Assigning the quality letter of phred 41 to (A, 7) gives
    (A, 41), of rank 0*42 + 41 = 41. *)
Theorem per_type_assignment_frame :
  (forall (sequence_alphabet_t quality_alphabet_t : Type)
          (seq_concept : seqan3.nucleotide_concept sequence_alphabet_t)
          (qual_concept : seqan3.quality_concept quality_alphabet_t)
          (q : qualified.qualified sequence_alphabet_t quality_alphabet_t)
          (l : sequence_alphabet_t),
      qualified.get0 (qualified.operator_assign_sequence q l) = l /\
      qualified.get1 (qualified.operator_assign_sequence q l) = qualified.get1 q) /\
  (forall (sequence_alphabet_t quality_alphabet_t : Type)
          (seq_concept : seqan3.nucleotide_concept sequence_alphabet_t)
          (qual_concept : seqan3.quality_concept quality_alphabet_t)
          (q : qualified.qualified sequence_alphabet_t quality_alphabet_t)
          (l : quality_alphabet_t),
      qualified.get1 (qualified.operator_assign_quality q l) = l /\
      qualified.get0 (qualified.operator_assign_quality q l) = qualified.get0 q) /\
  seqan3.to_phred (phred42.of_phred 41) = 41 /\
  qualified.operator_assign_quality (dna4q_init dna4.A 7) (phred42.of_phred 41)
  = dna4q_init dna4.A 41 /\
  qualified.to_rank
    (qualified.operator_assign_quality (dna4q_init dna4.A 7) (phred42.of_phred 41))
  = 0 * 42 + 41 /\
  qualified.to_rank
    (qualified.operator_assign_quality (dna4q_init dna4.A 7) (phred42.of_phred 41))
  = 41.
Proof. repeat split. Qed.

(** C5.  [complement()] returns a letter whose slot 0 is the complement of
    the sequence letter and whose slot 1 is the quality letter as it was; the
    object it is called on is the same after the call. *)
Theorem complement_slots
    (sequence_alphabet_t quality_alphabet_t : Type)
    `{seq_concept : seqan3.nucleotide_concept sequence_alphabet_t}
    `{qual_concept : seqan3.quality_concept quality_alphabet_t}
    (q : qualified.qualified sequence_alphabet_t quality_alphabet_t) :
  qualified.get0 (qualified.complement q) = seqan3.complement (qualified.get0 q) /\
  qualified.get1 (qualified.complement q) = qualified.get1 q /\
  fst (qualified.complement_call q) = qualified.complement q /\
  snd (qualified.complement_call q) = q.
Proof. repeat split. Qed.

(** C6.  If the complement of the sequence alphabet is an involution, then
    complementing a qualified letter twice gives the very same letter (and so
    one that compares equal to it), and the quality letter of the complement
    is the quality letter of the original. *)
Theorem complement_involution
    (sequence_alphabet_t quality_alphabet_t : Type)
    `{seq_concept : seqan3.nucleotide_concept sequence_alphabet_t}
    `{qual_concept : seqan3.quality_concept quality_alphabet_t}
    (involutive : forall x : sequence_alphabet_t,
        seqan3.complement (seqan3.complement x) = x)
    (q : qualified.qualified sequence_alphabet_t quality_alphabet_t) :
  qualified.complement (qualified.complement q) = q /\
  qualified.get1 (qualified.complement q) = qualified.get1 q.
Proof.
  split; [|reflexivity].
  destruct q as [s p]. unfold qualified.complement. simpl.
  now rewrite involutive.
Qed.

Lemma complement_involution_witness :
  (forall x : dna4.dna4, seqan3.complement (seqan3.complement x) = x) /\
  qualified.complement (qualified.complement (dna4q_init dna4.C 30))
  = dna4q_init dna4.C 30 /\
  qualified.get1 (qualified.complement (dna4q_init dna4.C 30))
  = phred42.of_phred 30.
Proof.
  split; [intros []; reflexivity|].
  apply (complement_involution dna4.dna4 phred42.phred42
           (seq_concept := dna4.nucleotide) (qual_concept := phred42.quality)).
  intros []; reflexivity.
Defined.

(** C7.  Every comparison of a qualified letter with a bare sequence letter,
    in either operand order, is the sequence alphabet's comparison applied to
    slot 0, so two qualified letters with the same sequence letter and any
    two quality letters give the same answer; every comparison with a bare
    quality letter is the quality alphabet's comparison applied to slot 1,
    so the sequence letter has no influence. *)
Theorem cross_comparison_reads_one_slot
    (sequence_alphabet_t quality_alphabet_t : Type)
    `{seq_concept : seqan3.nucleotide_concept sequence_alphabet_t}
    `{qual_concept : seqan3.quality_concept quality_alphabet_t} :
  (forall (q : qualified.qualified sequence_alphabet_t quality_alphabet_t)
          (s : sequence_alphabet_t),
      qualified.operator_eq_sequence q s = seqan3.op_eq (qualified.get0 q) s /\
      qualified.operator_ne_sequence q s = seqan3.op_ne (qualified.get0 q) s /\
      qualified.operator_lt_sequence q s = seqan3.op_lt (qualified.get0 q) s /\
      qualified.operator_gt_sequence q s = seqan3.op_gt (qualified.get0 q) s /\
      qualified.operator_le_sequence q s = seqan3.op_le (qualified.get0 q) s /\
      qualified.operator_ge_sequence q s = seqan3.op_ge (qualified.get0 q) s /\
      qualified.friend_eq_sequence s q = seqan3.op_eq (qualified.get0 q) s /\
      qualified.friend_ne_sequence s q = seqan3.op_ne (qualified.get0 q) s /\
      qualified.friend_lt_sequence s q = seqan3.op_gt (qualified.get0 q) s /\
      qualified.friend_gt_sequence s q = seqan3.op_lt (qualified.get0 q) s /\
      qualified.friend_le_sequence s q = seqan3.op_ge (qualified.get0 q) s /\
      qualified.friend_ge_sequence s q = seqan3.op_le (qualified.get0 q) s) /\
  (forall (a s : sequence_alphabet_t) (p p' : quality_alphabet_t),
      let q := qualified.Build_qualified a p in
      let q' := qualified.Build_qualified a p' in
      qualified.operator_eq_sequence q s = qualified.operator_eq_sequence q' s /\
      qualified.operator_ne_sequence q s = qualified.operator_ne_sequence q' s /\
      qualified.operator_lt_sequence q s = qualified.operator_lt_sequence q' s /\
      qualified.operator_gt_sequence q s = qualified.operator_gt_sequence q' s /\
      qualified.operator_le_sequence q s = qualified.operator_le_sequence q' s /\
      qualified.operator_ge_sequence q s = qualified.operator_ge_sequence q' s /\
      qualified.friend_eq_sequence s q = qualified.friend_eq_sequence s q' /\
      qualified.friend_ne_sequence s q = qualified.friend_ne_sequence s q' /\
      qualified.friend_lt_sequence s q = qualified.friend_lt_sequence s q' /\
      qualified.friend_gt_sequence s q = qualified.friend_gt_sequence s q' /\
      qualified.friend_le_sequence s q = qualified.friend_le_sequence s q' /\
      qualified.friend_ge_sequence s q = qualified.friend_ge_sequence s q') /\
  (forall (q : qualified.qualified sequence_alphabet_t quality_alphabet_t)
          (v : quality_alphabet_t),
      qualified.operator_eq_quality q v = seqan3.op_eq (qualified.get1 q) v /\
      qualified.operator_ne_quality q v = seqan3.op_ne (qualified.get1 q) v /\
      qualified.operator_lt_quality q v = seqan3.op_lt (qualified.get1 q) v /\
      qualified.operator_gt_quality q v = seqan3.op_gt (qualified.get1 q) v /\
      qualified.operator_le_quality q v = seqan3.op_le (qualified.get1 q) v /\
      qualified.operator_ge_quality q v = seqan3.op_ge (qualified.get1 q) v /\
      qualified.friend_eq_quality v q = seqan3.op_eq (qualified.get1 q) v /\
      qualified.friend_ne_quality v q = seqan3.op_ne (qualified.get1 q) v /\
      qualified.friend_lt_quality v q = seqan3.op_gt (qualified.get1 q) v /\
      qualified.friend_gt_quality v q = seqan3.op_lt (qualified.get1 q) v /\
      qualified.friend_le_quality v q = seqan3.op_ge (qualified.get1 q) v /\
      qualified.friend_ge_quality v q = seqan3.op_le (qualified.get1 q) v) /\
  (forall (a a' : sequence_alphabet_t) (p v : quality_alphabet_t),
      let q := qualified.Build_qualified a p in
      let q' := qualified.Build_qualified a' p in
      qualified.operator_eq_quality q v = qualified.operator_eq_quality q' v /\
      qualified.operator_ne_quality q v = qualified.operator_ne_quality q' v /\
      qualified.operator_lt_quality q v = qualified.operator_lt_quality q' v /\
      qualified.operator_gt_quality q v = qualified.operator_gt_quality q' v /\
      qualified.operator_le_quality q v = qualified.operator_le_quality q' v /\
      qualified.operator_ge_quality q v = qualified.operator_ge_quality q' v /\
      qualified.friend_eq_quality v q = qualified.friend_eq_quality v q' /\
      qualified.friend_ne_quality v q = qualified.friend_ne_quality v q' /\
      qualified.friend_lt_quality v q = qualified.friend_lt_quality v q' /\
      qualified.friend_gt_quality v q = qualified.friend_gt_quality v q' /\
      qualified.friend_le_quality v q = qualified.friend_le_quality v q' /\
      qualified.friend_ge_quality v q = qualified.friend_ge_quality v q').
Proof. repeat split. Qed.

(** C8.  With the bare letter on the left, each comparison is the mirrored
    comparison with the qualified letter on the left: [v == q] is [q == v],
    [v != q] is [q != v], [v < q] is [q > v], [v > q] is [q < v], [v <= q]
    is [q >= v] and [v >= q] is [q <= v], for a sequence letter and for a
    quality letter alike. *)
Theorem friend_comparisons_mirror_members
    (sequence_alphabet_t quality_alphabet_t : Type)
    `{seq_concept : seqan3.nucleotide_concept sequence_alphabet_t}
    `{qual_concept : seqan3.quality_concept quality_alphabet_t}
    (q : qualified.qualified sequence_alphabet_t quality_alphabet_t)
    (s : sequence_alphabet_t) (v : quality_alphabet_t) :
  (qualified.friend_eq_sequence s q = qualified.operator_eq_sequence q s /\
   qualified.friend_ne_sequence s q = qualified.operator_ne_sequence q s /\
   qualified.friend_lt_sequence s q = qualified.operator_gt_sequence q s /\
   qualified.friend_gt_sequence s q = qualified.operator_lt_sequence q s /\
   qualified.friend_le_sequence s q = qualified.operator_ge_sequence q s /\
   qualified.friend_ge_sequence s q = qualified.operator_le_sequence q s) /\
  (qualified.friend_eq_quality v q = qualified.operator_eq_quality q v /\
   qualified.friend_ne_quality v q = qualified.operator_ne_quality q v /\
   qualified.friend_lt_quality v q = qualified.operator_gt_quality q v /\
   qualified.friend_gt_quality v q = qualified.operator_lt_quality q v /\
   qualified.friend_le_quality v q = qualified.operator_ge_quality q v /\
   qualified.friend_ge_quality v q = qualified.operator_le_quality q v).
Proof. repeat split. Qed.

(** C9.  [to_char()] is the character of the sequence letter in slot 0 and
    [to_phred()] is the phred score of the quality letter in slot 1; the
    object either is called on is the same after the call. *)
Theorem to_char_to_phred_delegate
    (sequence_alphabet_t quality_alphabet_t : Type)
    `{seq_concept : seqan3.nucleotide_concept sequence_alphabet_t}
    `{qual_concept : seqan3.quality_concept quality_alphabet_t}
    (q : qualified.qualified sequence_alphabet_t quality_alphabet_t) :
  qualified.to_char q = seqan3.to_char (qualified.get0 q) /\
  qualified.to_phred q = seqan3.to_phred (qualified.get1 q) /\
  qualified.to_char_call q = (qualified.to_char q, q) /\
  qualified.to_phred_call q = (qualified.to_phred q, q).
Proof. repeat split. Qed.

(** C10.  Equality with a bare sequence letter is coarser than equality of
    qualified letters: (A, 7) and (A, 8) share their sequence letter, are
    different letters and compare unequal, yet (A, 7) == A and A == (A, 8)
    both hold. *)
Theorem cross_equality_is_coarser :
  exists (q1 q2 : dna4q) (s : dna4.dna4),
    q1 <> q2 /\
    qualified.operator_ne q1 q2 = true /\
    qualified.operator_eq q1 q2 = false /\
    qualified.get0 q1 = qualified.get0 q2 /\
    qualified.operator_eq_sequence q1 s = true /\
    qualified.friend_eq_sequence s q2 = true.
Proof.
  exists (dna4q_init dna4.A 7), (dna4q_init dna4.A 8), dna4.A.
  repeat split. discriminate.
Qed.

(* ================================================================== *)
(** * How the members of [qualified] compose *)
(* ================================================================== *)

Section composition.

Context {sequence_alphabet_t quality_alphabet_t : Type}.
Context `{seq_concept : seqan3.nucleotide_concept sequence_alphabet_t}.
Context `{qual_concept : seqan3.quality_concept quality_alphabet_t}.

Implicit Types (q : qualified.qualified sequence_alphabet_t quality_alphabet_t)
               (s l : sequence_alphabet_t) (p v : quality_alphabet_t).

(** X1.  The two per-type assignments commute, and applied one after the
    other to any letter they give the letter [qualified{s, p}]: what the
    object held before is gone. *)
Theorem per_type_assignments_commute q s p :
  qualified.operator_assign_quality (qualified.operator_assign_sequence q s) p
  = qualified.operator_assign_sequence (qualified.operator_assign_quality q p) s /\
  qualified.operator_assign_quality (qualified.operator_assign_sequence q s) p
  = qualified.Build_qualified s p.
Proof. split; reflexivity. Qed.

(** X2.  A per-type assignment forgets what an earlier write put into the
    same slot, whether that write was the same operator or [assign_char] /
    [assign_phred]; assigning to a slot the letter it already holds changes
    nothing. *)
Theorem per_type_assignment_last_wins q s l p v
    (c : qualified.char_type) (ph : qualified.phred_type) :
  qualified.operator_assign_sequence (qualified.operator_assign_sequence q s) l
  = qualified.operator_assign_sequence q l /\
  qualified.operator_assign_quality (qualified.operator_assign_quality q p) v
  = qualified.operator_assign_quality q v /\
  qualified.operator_assign_sequence (qualified.assign_char q c) l
  = qualified.operator_assign_sequence q l /\
  qualified.operator_assign_quality (qualified.assign_phred q ph) v
  = qualified.operator_assign_quality q v /\
  qualified.operator_assign_sequence q (qualified.get0 q) = q /\
  qualified.operator_assign_quality q (qualified.get1 q) = q.
Proof. destruct q; repeat split. Qed.

(** X3.  A write to the sequence slot and a write to the quality slot can be
    done in either order: [assign_char] commutes with [assign_phred] and with
    the assignment of a quality letter, [assign_phred] with the assignment of
    a sequence letter. *)
Theorem assign_char_assign_phred_commute q s v
    (c : qualified.char_type) (ph : qualified.phred_type) :
  qualified.assign_phred (qualified.assign_char q c) ph
  = qualified.assign_char (qualified.assign_phred q ph) c /\
  qualified.assign_char (qualified.operator_assign_quality q v) c
  = qualified.operator_assign_quality (qualified.assign_char q c) v /\
  qualified.assign_phred (qualified.operator_assign_sequence q s) ph
  = qualified.operator_assign_sequence (qualified.assign_phred q ph) s.
Proof. repeat split. Qed.

(** X4.  Complementing commutes with every write to the quality slot, and
    the complement has the phred score of the original. *)
Theorem complement_commutes_with_quality_writes q v (ph : qualified.phred_type) :
  qualified.complement (qualified.assign_phred q ph)
  = qualified.assign_phred (qualified.complement q) ph /\
  qualified.complement (qualified.operator_assign_quality q v)
  = qualified.operator_assign_quality (qualified.complement q) v /\
  qualified.to_phred (qualified.complement q) = qualified.to_phred q.
Proof. repeat split. Qed.

(** X5.  [to_char] never sees a write to the quality slot and [to_phred]
    never sees a write to the sequence slot. *)
Theorem reads_ignore_foreign_writes q s v
    (c : qualified.char_type) (ph : qualified.phred_type) :
  qualified.to_char (qualified.assign_phred q ph) = qualified.to_char q /\
  qualified.to_char (qualified.operator_assign_quality q v) = qualified.to_char q /\
  qualified.to_phred (qualified.assign_char q c) = qualified.to_phred q /\
  qualified.to_phred (qualified.operator_assign_sequence q s) = qualified.to_phred q.
Proof. repeat split. Qed.

(** X6.  A qualified letter and its complement compare alike with every bare
    quality letter, under all six operators and in both operand orders. *)
Theorem complement_keeps_quality_comparisons q v :
  qualified.operator_eq_quality (qualified.complement q) v
  = qualified.operator_eq_quality q v /\
  qualified.operator_ne_quality (qualified.complement q) v
  = qualified.operator_ne_quality q v /\
  qualified.operator_lt_quality (qualified.complement q) v
  = qualified.operator_lt_quality q v /\
  qualified.operator_gt_quality (qualified.complement q) v
  = qualified.operator_gt_quality q v /\
  qualified.operator_le_quality (qualified.complement q) v
  = qualified.operator_le_quality q v /\
  qualified.operator_ge_quality (qualified.complement q) v
  = qualified.operator_ge_quality q v /\
  qualified.friend_eq_quality v (qualified.complement q)
  = qualified.friend_eq_quality v q /\
  qualified.friend_ne_quality v (qualified.complement q)
  = qualified.friend_ne_quality v q /\
  qualified.friend_lt_quality v (qualified.complement q)
  = qualified.friend_lt_quality v q /\
  qualified.friend_gt_quality v (qualified.complement q)
  = qualified.friend_gt_quality v q /\
  qualified.friend_le_quality v (qualified.complement q)
  = qualified.friend_le_quality v q /\
  qualified.friend_ge_quality v (qualified.complement q)
  = qualified.friend_ge_quality v q.
Proof. repeat split. Qed.

(** X7.  Where the sequence alphabet reads back the character [c] it was
    assigned and the quality alphabet reads back the score [ph] it was
    assigned, a qualified letter reads back both, in whichever order the two
    were written. *)
Theorem assign_then_read_round_trip q
    (c : qualified.char_type) (ph : qualified.phred_type)
    (char_back : forall x : sequence_alphabet_t,
        seqan3.to_char (seqan3.assign_char x c) = c)
    (phred_back : forall y : quality_alphabet_t,
        seqan3.to_phred (seqan3.assign_phred y ph) = ph) :
  qualified.to_char (qualified.assign_phred (qualified.assign_char q c) ph) = c /\
  qualified.to_phred (qualified.assign_phred (qualified.assign_char q c) ph) = ph /\
  qualified.to_char (qualified.assign_char (qualified.assign_phred q ph) c) = c /\
  qualified.to_phred (qualified.assign_char (qualified.assign_phred q ph) c) = ph.
Proof.
  unfold qualified.to_char, qualified.to_phred; simpl.
  repeat split; auto.
Qed.

(** X8.  After a bare letter has been assigned to a qualified letter the two
    compare equal, in both operand orders, provided the letter compares
    equal to itself in its own alphabet. *)
Theorem assign_then_compare_equal q l v
    (seq_refl : seqan3.op_eq l l = true)
    (qual_refl : seqan3.op_eq v v = true) :
  qualified.operator_eq_sequence (qualified.operator_assign_sequence q l) l = true /\
  qualified.friend_eq_sequence l (qualified.operator_assign_sequence q l) = true /\
  qualified.operator_eq_quality (qualified.operator_assign_quality q v) v = true /\
  qualified.friend_eq_quality v (qualified.operator_assign_quality q v) = true.
Proof. repeat split; assumption. Qed.

(** X9.  When, in the sequence alphabet, [==] and [!=] are symmetric, [>] is
    the converse of [<] and [>=] the converse of [<=], a comparison with the
    bare sequence letter on the left compares that letter with slot 0 in the
    order written: [s < q] is [s < get<0>(q)], and so on for all six. *)
Theorem friend_sequence_comparisons_directed q s
    (eq_symm : forall a b : sequence_alphabet_t, seqan3.op_eq a b = seqan3.op_eq b a)
    (ne_symm : forall a b : sequence_alphabet_t, seqan3.op_ne a b = seqan3.op_ne b a)
    (gt_lt : forall a b : sequence_alphabet_t, seqan3.op_gt a b = seqan3.op_lt b a)
    (ge_le : forall a b : sequence_alphabet_t, seqan3.op_ge a b = seqan3.op_le b a) :
  qualified.friend_eq_sequence s q = seqan3.op_eq s (qualified.get0 q) /\
  qualified.friend_ne_sequence s q = seqan3.op_ne s (qualified.get0 q) /\
  qualified.friend_lt_sequence s q = seqan3.op_lt s (qualified.get0 q) /\
  qualified.friend_gt_sequence s q = seqan3.op_gt s (qualified.get0 q) /\
  qualified.friend_le_sequence s q = seqan3.op_le s (qualified.get0 q) /\
  qualified.friend_ge_sequence s q = seqan3.op_ge s (qualified.get0 q).
Proof.
  unfold qualified.friend_eq_sequence, qualified.friend_ne_sequence,
    qualified.friend_lt_sequence, qualified.friend_gt_sequence,
    qualified.friend_le_sequence, qualified.friend_ge_sequence,
    qualified.operator_eq_sequence, qualified.operator_ne_sequence,
    qualified.operator_lt_sequence, qualified.operator_gt_sequence,
    qualified.operator_le_sequence, qualified.operator_ge_sequence.
  repeat split; first [solve [auto] | now rewrite gt_lt | now rewrite ge_le].
Qed.

(** X10.  The same for the quality letter: under the same four conditions on
    the quality alphabet, [v < q] is [v < get<1>(q)], and so on for all
    six. *)
Theorem friend_quality_comparisons_directed q v
    (eq_symm : forall a b : quality_alphabet_t, seqan3.op_eq a b = seqan3.op_eq b a)
    (ne_symm : forall a b : quality_alphabet_t, seqan3.op_ne a b = seqan3.op_ne b a)
    (gt_lt : forall a b : quality_alphabet_t, seqan3.op_gt a b = seqan3.op_lt b a)
    (ge_le : forall a b : quality_alphabet_t, seqan3.op_ge a b = seqan3.op_le b a) :
  qualified.friend_eq_quality v q = seqan3.op_eq v (qualified.get1 q) /\
  qualified.friend_ne_quality v q = seqan3.op_ne v (qualified.get1 q) /\
  qualified.friend_lt_quality v q = seqan3.op_lt v (qualified.get1 q) /\
  qualified.friend_gt_quality v q = seqan3.op_gt v (qualified.get1 q) /\
  qualified.friend_le_quality v q = seqan3.op_le v (qualified.get1 q) /\
  qualified.friend_ge_quality v q = seqan3.op_ge v (qualified.get1 q).
Proof.
  unfold qualified.friend_eq_quality, qualified.friend_ne_quality,
    qualified.friend_lt_quality, qualified.friend_gt_quality,
    qualified.friend_le_quality, qualified.friend_ge_quality,
    qualified.operator_eq_quality, qualified.operator_ne_quality,
    qualified.operator_lt_quality, qualified.operator_gt_quality,
    qualified.operator_le_quality, qualified.operator_ge_quality.
  repeat split; first [solve [auto] | now rewrite gt_lt | now rewrite ge_le].
Qed.

Lemma complement_twice q :
  (forall x : sequence_alphabet_t, seqan3.complement (seqan3.complement x) = x) ->
  qualified.complement (qualified.complement q) = q.
Proof.
  intros involutive. destruct q as [a b].
  unfold qualified.complement; simpl. now rewrite involutive.
Qed.

(** X11.  When equality in the sequence alphabet holds exactly between equal
    letters and its complement is an involution, complementing both sides
    keeps the answer of the equality test between a qualified letter and a
    bare sequence letter, in both operand orders. *)
Theorem complement_respects_cross_equality q s
    (eq_decides : forall a b : sequence_alphabet_t,
        seqan3.op_eq a b = true <-> a = b)
    (involutive : forall x : sequence_alphabet_t,
        seqan3.complement (seqan3.complement x) = x) :
  qualified.operator_eq_sequence (qualified.complement q) (seqan3.complement s)
  = qualified.operator_eq_sequence q s /\
  qualified.friend_eq_sequence (seqan3.complement s) (qualified.complement q)
  = qualified.friend_eq_sequence s q.
Proof.
  assert (Hmain : seqan3.op_eq (seqan3.complement (qualified.get0 q))
                               (seqan3.complement s)
                  = seqan3.op_eq (qualified.get0 q) s).
  { apply eq_true_iff_eq. rewrite !eq_decides. split.
    - intros Heq. rewrite <- (involutive (qualified.get0 q)), Heq.
      apply involutive.
    - now intros ->. }
  split; exact Hmain.
Qed.

(** X12.  When the complement of the sequence alphabet is an involution,
    [complement()] is one-to-one and every qualified letter is the
    complement of one; in any case a qualified letter is its own complement
    exactly when its sequence letter is. *)
Theorem complement_bijective
    (involutive : forall x : sequence_alphabet_t,
        seqan3.complement (seqan3.complement x) = x) :
  (forall q q', qualified.complement q = qualified.complement q' -> q = q') /\
  (forall q, exists q', qualified.complement q' = q) /\
  (forall q, qualified.complement q = q
             <-> seqan3.complement (qualified.get0 q) = qualified.get0 q).
Proof.
  split; [|split].
  - intros q q' Heq.
    rewrite <- (complement_twice q involutive), Heq.
    now apply complement_twice.
  - intros q. exists (qualified.complement q). now apply complement_twice.
  - intros [a b]. unfold qualified.complement; simpl. split.
    + now intros [= Ha].
    + now intros ->.
Qed.

End composition.

Lemma dna4_op_eq_decides (a b : dna4.dna4) : seqan3.op_eq a b = true <-> a = b.
Proof. destruct a, b; split; intros H; first [reflexivity | discriminate H]. Qed.

Lemma assign_then_read_round_trip_witness :
  (forall x : dna4.dna4,
      seqan3.to_char (alphabet_t := dna4.dna4) (seqan3.assign_char x "G"%char)
      = "G"%char) /\
  (forall y : phred42.phred42, seqan3.to_phred (seqan3.assign_phred y 30) = 30) /\
  qualified.to_char
    (qualified.assign_phred (qualified.assign_char (dna4q_init dna4.A 7) "G"%char) 30)
  = "G"%char /\
  qualified.to_phred
    (qualified.assign_char (qualified.assign_phred (dna4q_init dna4.A 7) 30) "G"%char)
  = 30.
Proof.
  split; [reflexivity|]. split; [reflexivity|].
  destruct (assign_then_read_round_trip
              (seq_concept := dna4.nucleotide) (qual_concept := phred42.quality)
              (dna4q_init dna4.A 7) "G"%char 30)
    as (Hc & _ & _ & Hp); [reflexivity | reflexivity |].
  split; [exact Hc | exact Hp].
Defined.

Lemma assign_then_compare_equal_witness :
  seqan3.op_eq dna4.C dna4.C = true /\
  seqan3.op_eq (phred42.of_phred 20) (phred42.of_phred 20) = true /\
  qualified.operator_eq_sequence
    (qualified.operator_assign_sequence (dna4q_init dna4.A 7) dna4.C) dna4.C = true /\
  qualified.friend_eq_quality (phred42.of_phred 20)
    (qualified.operator_assign_quality (dna4q_init dna4.A 7) (phred42.of_phred 20))
  = true.
Proof.
  split; [reflexivity|]. split; [reflexivity|].
  destruct (assign_then_compare_equal
              (seq_concept := dna4.nucleotide) (qual_concept := phred42.quality)
              (dna4q_init dna4.A 7) dna4.C (phred42.of_phred 20))
    as (Hs & _ & _ & Hq); [reflexivity | reflexivity |].
  split; [exact Hs | exact Hq].
Defined.

Lemma friend_sequence_comparisons_directed_witness :
  (forall a b : dna4.dna4, seqan3.op_gt a b = seqan3.op_lt b a) /\
  qualified.friend_lt_sequence dna4.A (dna4q_init dna4.G 7) = true /\
  qualified.friend_gt_sequence dna4.A (dna4q_init dna4.G 7) = false /\
  qualified.friend_le_sequence dna4.T (dna4q_init dna4.G 7) = false.
Proof.
  split; [reflexivity|].
  destruct (friend_sequence_comparisons_directed
              (seq_concept := dna4.nucleotide)
              (dna4q_init dna4.G 7) dna4.A)
    as (_ & _ & Hlt & Hgt & _);
    [intros [] []; reflexivity | intros [] []; reflexivity
     | reflexivity | reflexivity |].
  destruct (friend_sequence_comparisons_directed
              (seq_concept := dna4.nucleotide)
              (dna4q_init dna4.G 7) dna4.T)
    as (_ & _ & _ & _ & Hle & _);
    [intros [] []; reflexivity | intros [] []; reflexivity
     | reflexivity | reflexivity |].
  split; [rewrite Hlt; reflexivity|].
  split; [rewrite Hgt; reflexivity | rewrite Hle; reflexivity].
Defined.

Lemma friend_quality_comparisons_directed_witness :
  (forall a b : phred42.phred42, seqan3.op_gt a b = seqan3.op_lt b a) /\
  qualified.friend_lt_quality (phred42.of_phred 3) (dna4q_init dna4.G 7) = true /\
  qualified.friend_ge_quality (phred42.of_phred 3) (dna4q_init dna4.G 7) = false.
Proof.
  split; [reflexivity|].
  destruct (friend_quality_comparisons_directed
              (qual_concept := phred42.quality)
              (dna4q_init dna4.G 7) (phred42.of_phred 3))
    as (_ & _ & Hlt & _ & _ & Hge);
    [intros a b; apply N.eqb_sym
     | intros a b; cbn; f_equal; apply N.eqb_sym
     | reflexivity | reflexivity |].
  split; [rewrite Hlt; reflexivity | rewrite Hge; reflexivity].
Defined.

Lemma complement_respects_cross_equality_witness :
  (forall a b : dna4.dna4, seqan3.op_eq a b = true <-> a = b) /\
  (forall x : dna4.dna4, seqan3.complement (seqan3.complement x) = x) /\
  qualified.operator_eq_sequence
    (qualified.complement (dna4q_init dna4.C 7)) (seqan3.complement dna4.C)
  = qualified.operator_eq_sequence (dna4q_init dna4.C 7) dna4.C.
Proof.
  split; [exact dna4_op_eq_decides|].
  split; [exact dna4_complement_involutive|].
  apply (complement_respects_cross_equality
           (seq_concept := dna4.nucleotide)
           (dna4q_init dna4.C 7) dna4.C
           dna4_op_eq_decides dna4_complement_involutive).
Defined.

Lemma complement_bijective_witness :
  (forall x : dna4.dna4, seqan3.complement (seqan3.complement x) = x) /\
  (exists q' : dna4q, qualified.complement q' = dna4q_init dna4.G 12).
Proof.
  split; [exact dna4_complement_involutive|].
  destruct (complement_bijective
              (quality_alphabet_t := phred42.phred42)
              (seq_concept := dna4.nucleotide)
              dna4_complement_involutive) as (_ & Hsur & _).
  apply Hsur.
Defined.
